(** * serve_readme: the README preview server

    A shallow embedding of [serve_readme.py].  The module renders the file
    [README.md] through the Markdown library into a fixed HTML page and
    answers every GET with it.

    The handler [MarkdownHandler.do_GET] is embedded as a computation in a
    small effect monad.  Every call that leaves the handler (to the file
    system, to the Markdown library, to the output methods the handler
    inherits) is recorded in order, with what the world answered, and an
    exception raised by such a call is threaded to the enclosing
    [try ... except Exception].  The output methods belong to the standard
    library: they are recorded with their arguments and taken to return.

    Python text is held as the byte string of its UTF-8 form; a file that is
    not valid UTF-8 is a file whose read raises. *)

From Stdlib Require Import String Ascii List ZArith Bool Lia.
From Stdlib Require Import DecimalString.
Import ListNotations.

Local Open Scope string_scope.
Local Open Scope list_scope.

(** * Text *)

Module Text.

Definition dq : string := String (ascii_of_nat 34) EmptyString.
Definition nl : string := String (ascii_of_nat 10) EmptyString.
Definition lbrace : ascii := ascii_of_nat 123.
Definition rbrace : ascii := ascii_of_nat 125.

(** The text of a triple-quoted literal, given line by line: every line is
    followed by a newline. *)
Fixpoint lines (l : list string) : string :=
  match l with
  | [] => EmptyString
  | x :: r => (x ++ nl ++ lines r)%string
  end.

(** [needle] occurs at the head of [s]. *)
Fixpoint starts_with (needle s : string) : bool :=
  match needle, s with
  | EmptyString, _ => true
  | String _ _, EmptyString => false
  | String a n, String b r => Ascii.eqb a b && starts_with n r
  end.

(** Number of positions of [s] at which [needle] occurs. *)
Fixpoint occurrences (needle s : string) : nat :=
  (if starts_with needle s then 1 else 0) +
  match s with
  | EmptyString => 0
  | String _ r => occurrences needle r
  end.

(** [needle in s]. *)
Definition contains (needle s : string) : bool :=
  negb (Nat.eqb (occurrences needle s) 0).

Fixpoint mem (c : ascii) (s : string) : bool :=
  match s with
  | EmptyString => false
  | String a r => Ascii.eqb a c || mem c r
  end.

(** The text before and after the first occurrence of [needle]. *)
Fixpoint split_on (needle s : string) : option (string * string) :=
  if starts_with needle s then
    Some (EmptyString, substring (String.length needle) (String.length s) s)
  else
    match s with
    | EmptyString => None
    | String c r =>
        match split_on needle r with
        | Some (a, b) => Some (String c a, b)
        | None => None
        end
    end.

(** The text between the first [opening] and the first [closing] after it. *)
Definition between (opening closing s : string) : option string :=
  match split_on opening s with
  | Some (_, after) =>
      match split_on closing after with
      | Some (inner, _) => Some inner
      | None => None
      end
  | None => None
  end.

Definition is_space (c : ascii) : bool :=
  Ascii.eqb c " " || Ascii.eqb c (ascii_of_nat 10) ||
  Ascii.eqb c (ascii_of_nat 9) || Ascii.eqb c (ascii_of_nat 13).

(** Nothing but white space. *)
Fixpoint is_blank (s : string) : bool :=
  match s with
  | EmptyString => true
  | String c r => is_space c && is_blank r
  end.

(** [str.encode('utf-8')] on text held in UTF-8 form. *)
Definition encode_utf8 (s : string) : list Byte.byte := list_byte_of_string s.

(** The text a byte string is the UTF-8 form of. *)
Definition decode_utf8 (b : list Byte.byte) : string := string_of_list_byte b.

End Text.
Import Text.

(** * Exceptions and results *)

(** An instance of Python's [Exception]: the name of its class and the text
    [str(e)].  [KeyboardInterrupt] and [SystemExit] are not instances of
    [Exception]; they end the process and are not values of this type. *)
Record exn : Type := mk_exn { exn_class : string; exn_str : string }.

Inductive result (A : Type) : Type :=
| Ok (a : A)
| Raise (e : exn).
Arguments Ok {A} a.
Arguments Raise {A} e.

Definition ValueError (msg : string) : exn := mk_exn "ValueError" msg.
(** [str(KeyError(k))] is the repr of the key. *)
Definition KeyError (key : string) : exn := mk_exn "KeyError" ("'" ++ key ++ "'").
Definition FileNotFoundError (p : string) : exn :=
  mk_exn "FileNotFoundError" ("[Errno 2] No such file or directory: '" ++ p ++ "'").

(** * [str.format] with keyword arguments *)

Module Format.

Definition kwargs := list (string * string).

Fixpoint lookup (kw : kwargs) (key : string) : option string :=
  match kw with
  | [] => None
  | (k, v) :: r => if String.eqb k key then Some v else lookup r key
  end.

(** Where the scan of the format string stands. *)
Inductive scan : Type :=
| Literal                 (* in literal text *)
| Lbrace                  (* a '{' was read and its meaning is open *)
| Rbrace                  (* a '}' was read in literal text *)
| Field (name : string).  (* inside a replacement field *)

Definition prepend (c : ascii) (r : result string) : result string :=
  match r with Ok s => Ok (String c s) | Raise e => Raise e end.

Definition prepend_text (v : string) (r : result string) : result string :=
  match r with Ok s => Ok (v ++ s)%string | Raise e => Raise e end.

(** The scan of [str.format] over keyword arguments, left to right: [{{] and [}}] stand for
    one brace, [{name}] for the keyword argument [name].  The errors are
    CPython's, raised at the position that causes them.  The model is exact
    for fields that are plain keyword names (no conversion [!], no format
    spec [:], no attribute or index, no positional field); a field outside
    that fragment is looked up by its text. *)
Fixpoint format_from (kw : kwargs) (st : scan) (s : string) : result string :=
  match s with
  | EmptyString =>
      match st with
      | Literal => Ok EmptyString
      | Lbrace => Raise (ValueError "Single '{' encountered in format string")
      | Rbrace => Raise (ValueError "Single '}' encountered in format string")
      | Field _ => Raise (ValueError "expected '}' before end of string")
      end
  | String c rest =>
      let in_field (name : string) : result string :=
        if Ascii.eqb c rbrace then
          match lookup kw name with
          | Some v => prepend_text v (format_from kw Literal rest)
          | None => Raise (KeyError name)
          end
        else if Ascii.eqb c lbrace then
          Raise (ValueError "unexpected '{' in field name")
        else format_from kw (Field (name ++ String c EmptyString)) rest in
      match st with
      | Literal =>
          if Ascii.eqb c lbrace then format_from kw Lbrace rest
          else if Ascii.eqb c rbrace then format_from kw Rbrace rest
          else prepend c (format_from kw Literal rest)
      | Lbrace =>
          if Ascii.eqb c lbrace then prepend lbrace (format_from kw Literal rest)
          else in_field EmptyString
      | Rbrace =>
          if Ascii.eqb c rbrace then prepend rbrace (format_from kw Literal rest)
          else Raise (ValueError "Single '}' encountered in format string")
      | Field name => in_field name
      end
  end.

Definition format (template : string) (kw : kwargs) : result string :=
  format_from kw Literal template.

End Format.

(** * The module's constants *)

Definition PORT : Z := 8000.

Definition GITHUB_DARK_CSS : string :=
  lines [
    EmptyString;
    "<style>";
    "html, body {";
    "  margin: 0;";
    "  padding: 0;";
    "  width: 100%;";
    "  background-color: #0d1117;";
    "}";
    EmptyString;
    "body {";
    "  min-height: 100vh;";
    "}";
    EmptyString;
    ".markdown-body {";
    "  box-sizing: border-box;";
    "  min-width: 200px;";
    "  max-width: 980px;";
    "  margin: 0 auto;";
    "  padding: 45px;";
    "  color: #c9d1d9;";
    "  background-color: #0d1117;";
    ("  font-family: -apple-system,BlinkMacSystemFont," ++ dq ++ "Segoe UI" ++ dq ++ ",Helvetica,Arial,sans-serif," ++ dq ++ "Apple Color Emoji" ++ dq ++ "," ++ dq ++ "Segoe UI Emoji" ++ dq ++ ";")%string;
    "  font-size: 16px;";
    "  line-height: 1.5;";
    "  word-wrap: break-word;";
    "}";
    EmptyString;
    ".markdown-body h1, .markdown-body h2, .markdown-body h3, .markdown-body h4, .markdown-body h5, .markdown-body h6 {";
    "  margin-top: 24px;";
    "  margin-bottom: 16px;";
    "  font-weight: 600;";
    "  line-height: 1.25;";
    "  color: #f0f6fc;";
    "}";
    EmptyString;
    ".markdown-body h1 {";
    "  font-size: 2em;";
    "  border-bottom: 1px solid #21262d;";
    "  padding-bottom: .3em;";
    "}";
    EmptyString;
    ".markdown-body h2 {";
    "  font-size: 1.5em;";
    "  border-bottom: 1px solid #21262d;";
    "  padding-bottom: .3em;";
    "}";
    EmptyString;
    ".markdown-body code {";
    "  padding: .2em .4em;";
    "  margin: 0;";
    "  font-size: 85%;";
    "  background-color: rgba(110,118,129,0.4);";
    "  border-radius: 6px;";
    "  color: #c9d1d9;";
    "  font-family: ui-monospace,SFMono-Regular,SF Mono,Menlo,Consolas,Liberation Mono,monospace;";
    "}";
    EmptyString;
    ".markdown-body pre {";
    "  padding: 16px;";
    "  overflow: auto;";
    "  font-size: 85%;";
    "  line-height: 1.45;";
    "  background-color: #161b22;";
    "  border-radius: 6px;";
    "  color: #c9d1d9;";
    "}";
    EmptyString;
    ".markdown-body pre code {";
    "  display: inline;";
    "  max-width: auto;";
    "  padding: 0;";
    "  margin: 0;";
    "  overflow: visible;";
    "  line-height: inherit;";
    "  word-wrap: normal;";
    "  background-color: transparent;";
    "  border: 0;";
    "}";
    EmptyString;
    ".markdown-body table {";
    "  border-spacing: 0;";
    "  border-collapse: collapse;";
    "  display: block;";
    "  width: max-content;";
    "  max-width: 100%;";
    "  overflow: auto;";
    "}";
    EmptyString;
    ".markdown-body table th, .markdown-body table td {";
    "  padding: 6px 13px;";
    "  border: 1px solid #30363d;";
    "}";
    EmptyString;
    ".markdown-body table th {";
    "  font-weight: 600;";
    "  background-color: #161b22;";
    "}";
    EmptyString;
    ".markdown-body table tr {";
    "  background-color: #0d1117;";
    "  border-top: 1px solid #21262d;";
    "}";
    EmptyString;
    ".markdown-body table tr:nth-child(2n) {";
    "  background-color: #161b22;";
    "}";
    EmptyString;
    ".markdown-body a {";
    "  color: #58a6ff;";
    "  text-decoration: none;";
    "}";
    EmptyString;
    ".markdown-body a:hover {";
    "  text-decoration: underline;";
    "}";
    EmptyString;
    ".markdown-body blockquote {";
    "  padding: 0 1em;";
    "  color: #8b949e;";
    "  border-left: .25em solid #30363d;";
    "  margin: 0;";
    "}";
    EmptyString;
    ".markdown-body ul, .markdown-body ol {";
    "  padding-left: 2em;";
    "}";
    EmptyString;
    ".markdown-body li {";
    "  margin: .25em 0;";
    "}";
    EmptyString;
    ".markdown-body hr {";
    "  height: .25em;";
    "  padding: 0;";
    "  margin: 24px 0;";
    "  background-color: #21262d;";
    "  border: 0;";
    "}";
    EmptyString;
    ".markdown-body strong {";
    "  font-weight: 600;";
    "  color: #f0f6fc;";
    "}";
    EmptyString;
    ".markdown-body em {";
    "  font-style: italic;";
    "  color: #c9d1d9;";
    "}";
    "</style>"
  ].

Definition HTML_TEMPLATE : string :=
  lines [
    "<!DOCTYPE html>";
    ("<html lang=" ++ dq ++ "en" ++ dq ++ ">")%string;
    "<head>";
    ("  <meta charset=" ++ dq ++ "UTF-8" ++ dq ++ ">")%string;
    ("  <meta name=" ++ dq ++ "viewport" ++ dq ++ " content=" ++ dq ++ "width=device-width, initial-scale=1.0" ++ dq ++ ">")%string;
    "  <title>{title}</title>";
    "  {css}";
    "</head>";
    "<body>";
    ("  <article class=" ++ dq ++ "markdown-body" ++ dq ++ ">")%string;
    "    {content}";
    "  </article>";
    "  <script>";
    "    // Auto-refresh every 2 seconds to see updates";
    "    setTimeout(function() {{";
    "      location.reload();";
    "    }}, 2000);";
    "  </script>";
    "</body>";
    "</html>"
  ].

(** * Effects *)

(** A Python [bytes] value. *)
Definition bytes : Type := list Byte.byte.

(** The calls that leave the handler, as it makes them. *)
Inductive call : Type :=
| Path_exists (p : string)                          (* Path(p).exists() *)
| Import (module : string)                          (* import module *)
| Open_read (p mode encoding : string)              (* open(p, mode, encoding=...) and f.read() *)
| Markdown (text : string) (extensions : list string)  (* markdown.markdown(text, extensions=...) *)
| Send_error (code : Z) (message : string)          (* self.send_error(code, message) *)
| Send_response (code : Z)                          (* self.send_response(code) *)
| Send_header (keyword value : string)              (* self.send_header(keyword, value) *)
| End_headers                                       (* self.end_headers() *)
| Wfile_write (data : bytes).                       (* self.wfile.write(data) *)

(** A computation: its value or the exception it raised, and the calls it
    made up to there.  A raised exception does not undo the calls made. *)
Definition M (A : Type) : Type := (result A * list call)%type.

Definition ret {A : Type} (a : A) : M A := (Ok a, []).

Definition bind {A B : Type} (m : M A) (k : A -> M B) : M B :=
  match m with
  | (Ok a, t) => let (r, t') := k a in (r, t ++ t')
  | (Raise e, t) => (Raise e, t)
  end.

(** [try: body except Exception as e: handler e]. *)
Definition try_except {A : Type} (body : M A) (handler : exn -> M A) : M A :=
  match body with
  | (Ok a, t) => (Ok a, t)
  | (Raise e, t) => let (r, t') := handler e in (r, t ++ t')
  end.

(** A call and what it answered. *)
Definition perform {A : Type} (c : call) (answer : result A) : M A := (answer, [c]).

(** A pure step that may raise. *)
Definition lift {A : Type} (r : result A) : M A := (r, []).

Notation "x <- m ;; k" := (bind m (fun x => k))
  (at level 61, m at next level, right associativity).
Notation "m ;; k" := (bind m (fun _ => k))
  (at level 61, right associativity).

(** * The world a request meets *)

(** What a path names at one moment. *)
Inductive node : Type :=
| Absent                  (* nothing *)
| Holds (text : string)   (* a readable file, the UTF-8 form of [text] *)
| Faulty (e : exn).       (* something that exists and whose open, read or decoding raises [e] *)

(** [markdown.markdown]: source text and extension names to an HTML fragment. *)
Definition converter : Type := string -> list string -> result string.

(** The file system is consulted twice, by [exists] and by [open]; it may
    change in between.  [exists] answers yes or no, or raises where the path
    cannot be examined.  The import answers with the library or raises. *)
Record World : Type := {
  exists_at_check : string -> result bool;
  fs_at_open : string -> node;
  markdown_module : result converter
}.

Definition path_exists (w : World) (p : string) : M bool :=
  perform (Path_exists p) (exists_at_check w p).

Definition import_markdown (w : World) : M converter :=
  perform (Import "markdown") (markdown_module w).

(** What opening and reading path [p] answers when it names [n]. *)
Definition read_node (p : string) (n : node) : result string :=
  match n with
  | Absent => Raise (FileNotFoundError p)
  | Holds text => Ok text
  | Faulty e => Raise e
  end.

Definition open_read (w : World) (p mode encoding : string) : M string :=
  perform (Open_read p mode encoding) (read_node p (fs_at_open w p)).

Definition markdown_markdown (md : converter) (text : string) (extensions : list string) : M string :=
  perform (Markdown text extensions) (md text extensions).

Definition send_error (code : Z) (message : string) : M unit :=
  perform (Send_error code message) (Ok tt).
Definition send_response (code : Z) : M unit :=
  perform (Send_response code) (Ok tt).
Definition send_header (keyword value : string) : M unit :=
  perform (Send_header keyword value) (Ok tt).
Definition end_headers : M unit := perform End_headers (Ok tt).
Definition wfile_write (data : bytes) : M unit := perform (Wfile_write data) (Ok tt).

(** * The handler *)

(** The request as the handler instance holds it. *)
Record Request : Type := { command : string; path : string }.

Definition page_kwargs (html_content : string) : Format.kwargs :=
  [("title", "Blueprint App - README"); ("css", GITHUB_DARK_CSS); ("content", html_content)].

(** [MarkdownHandler.do_GET]. *)
Definition do_GET (self : Request) (w : World) : M unit :=
  try_except
    (let readme_path := "README.md" in
     present <- path_exists w readme_path ;;
     if negb present then
       send_error 404 "README.md not found"
     else
       markdown <- import_markdown w ;;
       md_content <- open_read w readme_path "r" "utf-8" ;;
       html_content <- markdown_markdown markdown md_content
                         ["tables"; "fenced_code"; "codehilite"] ;;
       html <- lift (Format.format HTML_TEMPLATE (page_kwargs html_content)) ;;
       send_response 200 ;;
       send_header "Content-type" "text/html; charset=utf-8" ;;
       end_headers ;;
       wfile_write (encode_utf8 html))
    (fun e => send_error 500 ("Error rendering markdown: " ++ exn_str e)).

(** ** The class *)

Definition method : Type := Request -> World -> M unit.

(** [class MarkdownHandler(http.server.SimpleHTTPRequestHandler)]: the class
    body defines [do_GET] and nothing else. *)
Definition MarkdownHandler_dict (name : string) : option method :=
  if String.eqb name "do_GET" then Some do_GET else None.

(** The base class [http.server.SimpleHTTPRequestHandler], as far as a
    request meets it: the methods it defines, and what it does with a
    request whose method it has no handler for.  It is the standard
    library's and enters as a parameter. *)
Record Base : Type := {
  base_dict : string -> option method;
  unsupported : method
}.

(** Attribute lookup on a handler: the class's own definitions come before
    the base class's. *)
Definition getattr (base : Base) (name : string) : option method :=
  match MarkdownHandler_dict name with
  | Some m => Some m
  | None => base_dict base name
  end.

(** The inherited dispatch of one request: the method named
    ["do_" + command] is looked up on the handler and called. *)
Definition handle_one_request (base : Base) (self : Request) (w : World) : M unit :=
  match getattr base ("do_" ++ command self) with
  | Some m => m self w
  | None => unsupported base self w
  end.

(** [httpd.serve_forever()] on a [TCPServer] of [MarkdownHandler]: the
    requests are handled one after the other, each by a handler of its own,
    in the world it meets. *)
Definition serve_forever (base : Base) (requests : list (Request * World)) : list (M unit) :=
  map (fun rw => handle_one_request base (fst rw) (snd rw)) requests.

(** * What the client is sent *)

Module Response.

(** The status: the code of the first response line started. *)
Fixpoint status (t : list call) : option Z :=
  match t with
  | [] => None
  | Send_response code :: _ => Some code
  | Send_error code _ :: _ => Some code
  | _ :: r => status r
  end.

(** The headers the handler sent, in order. *)
Fixpoint headers (t : list call) : list (string * string) :=
  match t with
  | [] => []
  | Send_header k v :: r => (k, v) :: headers r
  | _ :: r => headers r
  end.

(** The bytes the handler wrote as the body. *)
Fixpoint body (t : list call) : bytes :=
  match t with
  | [] => []
  | Wfile_write data :: r => data ++ body r
  | _ :: r => body r
  end.

(** The message of the error response, when there is one. *)
Fixpoint error_message (t : list call) : option string :=
  match t with
  | [] => None
  | Send_error _ message :: _ => Some message
  | _ :: r => error_message r
  end.

(** The calls to the converter: source text and extensions, in order. *)
Fixpoint conversions (t : list call) : list (string * list string) :=
  match t with
  | [] => []
  | Markdown text extensions :: r => (text, extensions) :: conversions r
  | _ :: r => conversions r
  end.

(** Did the handler open a file or call the converter? *)
Fixpoint reads_or_converts (t : list call) : bool :=
  match t with
  | [] => false
  | Open_read _ _ _ :: _ => true
  | Markdown _ _ :: _ => true
  | _ :: r => reads_or_converts r
  end.

End Response.

(** * The page around the fragment *)

Module Page.

(** The template on either side of its content field. *)
Definition template_around_content : string * string :=
  match split_on "{content}" HTML_TEMPLATE with
  | Some halves => halves
  | None => (HTML_TEMPLATE, EmptyString)
  end.

Definition formatted (template : string) : string :=
  match Format.format template (page_kwargs EmptyString) with
  | Ok s => s
  | Raise _ => EmptyString
  end.

(** The page up to the fragment, and from the fragment on. *)
Definition head : string := formatted (fst template_around_content).
Definition tail : string := formatted (snd template_around_content).

Definition page (fragment : string) : string := (head ++ fragment ++ tail)%string.

(** The call that reloads the page, and the script element the template
    wraps it in. *)
Definition reload_call : string := "location.reload();".

Definition reload_script : string :=
  lines [
    "<script>";
    "    // Auto-refresh every 2 seconds to see updates";
    "    setTimeout(function() {";
    "      location.reload();";
    "    }, 2000);"
  ] ++ "  </script>".

Definition script_open : string := "<script>".
Definition delay_2000 : string := "}, 2000);".

Definition article_open : string :=
  ("<article class=" ++ dq ++ "markdown-body" ++ dq ++ ">")%string.
Definition article_close : string := "</article>".

End Page.

(** * Well-formed HTML *)

Module Html.

Definition void_elements : list string :=
  ["area"; "base"; "br"; "col"; "embed"; "hr"; "img"; "input"; "link";
   "meta"; "source"; "track"; "wbr"].

Definition raw_text_elements : list string := ["script"; "style"].

Definition among (name : string) (l : list string) : bool :=
  existsb (String.eqb name) l.

Inductive mode : Type :=
| Text                                              (* between tags *)
| Lt                                                (* a '<' was read *)
| Name (closing : bool) (name : string)             (* in a tag's name *)
| Attrs (closing : bool) (name : string) (quote : option ascii)
                                                    (* after the name, maybe inside a quoted value *)
| Decl                                              (* in <! ... > *)
| Raw (name : string).                              (* in the text of a script or style element *)

Definition is_letter (c : ascii) : bool :=
  let n := nat_of_ascii c in
  (Nat.leb 65 n && Nat.leb n 90) || (Nat.leb 97 n && Nat.leb n 122).

Definition lt : ascii := "<".
Definition gt : ascii := ">".
Definition slash : ascii := "/".
Definition bang : ascii := "!".
Definition quote2 : ascii := ascii_of_nat 34.
Definition quote1 : ascii := ascii_of_nat 39.

(** The elements of [s] in the order they open, when every tag of [s] is
    closed by its own end tag, innermost first; [stack] holds the elements
    open so far.  Void elements take no end tag, and the text of a script or
    style element runs to its end tag. *)
Fixpoint scan (m : mode) (stack : list string) (s : string) : option (list string) :=
  match s with
  | EmptyString =>
      match m, stack with
      | Text, [] => Some []
      | _, _ => None
      end
  | String c rest =>
      let finish (closing : bool) (name : string) : option (list string) :=
        if closing then
          match stack with
          | top :: below => if String.eqb top name then scan Text below rest else None
          | [] => None
          end
        else if among name void_elements then
          option_map (cons name) (scan Text stack rest)
        else if among name raw_text_elements then
          option_map (cons name) (scan (Raw name) (name :: stack) rest)
        else
          option_map (cons name) (scan Text (name :: stack) rest) in
      match m with
      | Text => if Ascii.eqb c lt then scan Lt stack rest else scan Text stack rest
      | Lt =>
          if Ascii.eqb c slash then scan (Name true EmptyString) stack rest
          else if Ascii.eqb c bang then scan Decl stack rest
          else if is_letter c then scan (Name false (String c EmptyString)) stack rest
          else None
      | Name closing name =>
          if Ascii.eqb c gt then
            match name with EmptyString => None | _ => finish closing name end
          else if is_space c || Ascii.eqb c slash then scan (Attrs closing name None) stack rest
          else scan (Name closing (name ++ String c EmptyString)) stack rest
      | Attrs closing name None =>
          if Ascii.eqb c gt then finish closing name
          else if Ascii.eqb c quote2 || Ascii.eqb c quote1 then
            scan (Attrs closing name (Some c)) stack rest
          else scan (Attrs closing name None) stack rest
      | Attrs closing name (Some q) =>
          if Ascii.eqb c q then scan (Attrs closing name None) stack rest
          else scan (Attrs closing name (Some q)) stack rest
      | Decl => if Ascii.eqb c gt then scan Text stack rest else scan Decl stack rest
      | Raw name =>
          if Ascii.eqb c lt && starts_with (String slash name ++ String gt EmptyString) rest
          then scan Lt stack rest
          else scan (Raw name) stack rest
      end
  end.

Definition elements (s : string) : option (list string) := scan Text [] s.

(** A document: the doctype, then properly nested elements of which the
    first is [html], and nothing but white space after its end tag. *)
Definition well_formed (s : string) : bool :=
  starts_with "<!DOCTYPE html>" s &&
  match elements s with
  | Some (root :: _) => String.eqb root "html"
  | _ => false
  end &&
  match split_on "</html>" s with
  | Some (_, after) => is_blank after
  | None => false
  end.

End Html.

(** * The handler's outcomes *)

(** The file the handler serves and the extensions it asks the converter for. *)
Abbreviation README := "README.md"%string.
Abbreviation EXTENSIONS := ["tables"; "fenced_code"; "codehilite"]%string.

(** The handler's answer to an exception [e]. *)
Definition failure_message (e : exn) : string :=
  ("Error rendering markdown: " ++ exn_str e)%string.
Definition failure (e : exn) : call := Send_error 500 (failure_message e).

(** Exception [e] is raised on the way to the page: by the existence
    check, by the import, by opening, reading or decoding the file, or by
    the converter. *)
Inductive raised_in (w : World) (e : exn) : Prop :=
| check_raises :
    exists_at_check w README = Raise e -> raised_in w e
| import_raises :
    exists_at_check w README = Ok true ->
    markdown_module w = Raise e -> raised_in w e
| read_raises (md : converter) :
    exists_at_check w README = Ok true ->
    markdown_module w = Ok md ->
    read_node README (fs_at_open w README) = Raise e -> raised_in w e
| convert_raises (md : converter) (text : string) :
    exists_at_check w README = Ok true ->
    markdown_module w = Ok md ->
    read_node README (fs_at_open w README) = Ok text ->
    md text EXTENSIONS = Raise e -> raised_in w e.

(** The request is rendered: the file is found and read, and the library
    converts its text to [fragment]. *)
Definition rendered (w : World) (text fragment : string) : Prop :=
  exists_at_check w README = Ok true /\
  exists md : converter,
    markdown_module w = Ok md /\
    read_node README (fs_at_open w README) = Ok text /\
    md text EXTENSIONS = Ok fragment.

(** How often the handler opened a file. *)
Fixpoint opens (t : list call) : nat :=
  match t with
  | [] => 0
  | Open_read _ _ _ :: r => S (opens r)
  | _ :: r => opens r
  end.

(** * Sample worlds

    Concrete requests, files and converters to evaluate the handler on. *)

Module Sample.

Definition get (p : string) : Request := {| command := "GET"; path := p |}.

(** A directory that holds, at most, the one file [README.md]. *)
Definition only_readme (n : node) : string -> node :=
  fun p => if String.eqb p "README.md" then n else Absent.

Definition present (n : node) : bool :=
  match n with Absent => false | _ => true end.

(** The world in which [README.md] is [at_check] when the handler looks for
    it and [at_open] when it opens it. *)
Definition world (at_check at_open : node) (md : converter) : World :=
  {| exists_at_check := fun p => Ok (present (only_readme at_check p));
     fs_at_open := only_readme at_open;
     markdown_module := Ok md |}.

(** A file that stays as it is while the request is served. *)
Definition steady (text : string) (md : converter) : World :=
  world (Holds text) (Holds text) md.

Definition table_source : string :=
  lines ["| a | b |"; "|---|---|"; "| 1 | 2 |"].

Definition table_fragment : string :=
  lines ["<table>"; "<thead>"; "<tr>"; "<th>a</th>"; "<th>b</th>"; "</tr>"; "</thead>";
         "<tbody>"; "<tr>"; "<td>1</td>"; "<td>2</td>"; "</tr>"; "</tbody>"]
  ++ "</table>".

Definition script_source : string :=
  "<script>setTimeout(function() { location.reload(); }, 2000);</script>".

(** A stand-in for [markdown.markdown] on the few sources used below, where
    it answers as Python-Markdown does: a blank source gives the empty
    fragment, a raw [script] block is passed through, the sample table is a
    [table] element when the [tables] extension is on, and a line of plain
    text is a paragraph. *)
Definition markdown : converter :=
  fun text extensions =>
    if is_blank text then Ok EmptyString
    else if starts_with "<script>" text then Ok text
    else if String.eqb text table_source && Html.among "tables" extensions
    then Ok table_fragment
    else Ok ("<p>" ++ text ++ "</p>")%string.

(** The base class [http.server.SimpleHTTPRequestHandler] seen from the
    dispatch: it defines [do_GET] and [do_HEAD] (serving files from the
    directory, left opaque here) and refuses any other method with 501. *)
Definition http_server : Base :=
  {| base_dict := fun name =>
       if String.eqb name "do_GET" || String.eqb name "do_HEAD"
       then Some (fun _ _ => ret tt)
       else None;
     unsupported := fun self _ =>
       send_error 501 ("Unsupported method ('" ++ command self ++ "')") |}.

End Sample.

(** * The scanner's modes *)

(** The scanner reads raw text only inside a script or style element. *)
Definition mode_ok (m : Html.mode) : Prop :=
  match m with
  | Html.Raw name => Html.among name Html.raw_text_elements = true
  | _ => True
  end.

(** * The template, field by field *)

Module Template.

(** A text cut at the first occurrence of [field]. *)
Definition cut (field text : string) : string * string :=
  match split_on field text with
  | Some halves => halves
  | None => (text, EmptyString)
  end.

(** The literal text of a piece of format string: its doubled braces read
    as braces. *)
Definition literal (piece : string) : string :=
  match Format.format piece [] with
  | Ok s => s
  | Raise _ => EmptyString
  end.

(** The four texts around the fields [title], [css] and [content]. *)
Definition to_title : string := literal (fst (cut "{title}" HTML_TEMPLATE)).
Definition to_css : string :=
  literal (fst (cut "{css}" (snd (cut "{title}" HTML_TEMPLATE)))).
Definition to_content : string :=
  literal (fst (cut "{content}" (snd (cut "{css}" (snd (cut "{title}" HTML_TEMPLATE)))))).
Definition to_end : string :=
  literal (snd (cut "{content}" (snd (cut "{css}" (snd (cut "{title}" HTML_TEMPLATE)))))).

End Template.

(** * Start-up

    The block under [if __name__ == "__main__"]: it makes sure the Markdown
    library can be imported, installing it when it cannot, then binds the
    server and serves. *)

Declare Scope startup_scope.

Module Main.

(** The calls of the block, and the requests the server then takes. *)
Inductive step : Type :=
| Import_module (name : string)                 (* import name *)
| Print (line : string)                         (* print(line) *)
| Check_call (argv : list string)               (* subprocess.check_call(argv) *)
| TCPServer (host : string) (port : Z)          (* socketserver.TCPServer((host, port), MarkdownHandler) *)
| Handled (self : Request) (outcome : M unit).  (* one request taken by serve_forever, and what its handler did *)

(** A computation of the block: its value or the exception that ends the
    program, and the steps made up to there. *)
Definition P (A : Type) : Type := (result A * list step)%type.

Definition ret {A : Type} (a : A) : P A := (Ok a, []).

Definition bind {A B : Type} (m : P A) (k : A -> P B) : P B :=
  match m with
  | (Ok a, t) => let (r, t') := k a in (r, t ++ t')
  | (Raise e, t) => (Raise e, t)
  end.

(** [try: body except C: handler], where [caught e] tells whether [e] is an
    instance of [C]. *)
Definition try_except_of {A : Type} (caught : exn -> bool)
    (body : P A) (handler : exn -> P A) : P A :=
  match body with
  | (Ok a, t) => (Ok a, t)
  | (Raise e, t) =>
      if caught e then let (r, t') := handler e in (r, t ++ t') else (Raise e, t)
  end.

Definition perform {A : Type} (s : step) (answer : result A) : P A := (answer, [s]).

Notation "x <- m ;; k" := (bind m (fun x => k))
  (at level 61, m at next level, right associativity) : startup_scope.
Notation "m ;; k" := (bind m (fun _ => k))
  (at level 61, right associativity) : startup_scope.

Local Open Scope startup_scope.

(** What one request finds of the file system. *)
Record Files : Type := {
  check : string -> result bool;
  opened : string -> node
}.

(** What the program meets when it is started: the answers of the two
    imports, of [pip3] and of the bind; which exceptions are instances of
    [ImportError]; and the requests that arrive while the run is watched,
    each with the files it finds. *)
Record Startup : Type := {
  first_import : result converter;
  is_ImportError : exn -> bool;
  pip_install : result unit;
  second_import : result converter;
  bound : result unit;
  arrivals : list (Request * Files)
}.

Definition print (line : string) : P unit := perform (Print line) (Ok tt).

(** [str(n)] of an integer. *)
Definition str (n : Z) : string := NilZero.string_of_int (Z.to_int n).

(** The world of a request served by this process: the library is the one
    the start-up imported, which a later [import markdown] finds loaded. *)
Definition world_of (lib : converter) (f : Files) : World :=
  {| exists_at_check := check f; fs_at_open := opened f; markdown_module := Ok lib |}.

(** [httpd.serve_forever()], watched while the [requests] arrive: it does
    not return. *)
Definition httpd_serve_forever (base : Base) (lib : converter)
    (requests : list (Request * Files)) : P unit :=
  (Ok tt,
   map (fun a => Handled (fst a) (handle_one_request base (fst a) (world_of lib (snd a))))
       requests).

(** The block itself.  Its run is watched as long as requests arrive: the
    value [tt] stands for a server that is still serving. *)
Definition main (base : Base) (s : Startup) : P unit :=
  markdown <-
    try_except_of (is_ImportError s)
      (perform (Import_module "markdown") (first_import s))
      (fun _ =>
         print "Installing markdown library..." ;;
         perform (Import_module "subprocess") (Ok tt) ;;
         perform (Check_call ["pip3"; "install"; "markdown"]) (pip_install s) ;;
         perform (Import_module "markdown") (second_import s)) ;;
  perform (TCPServer EmptyString PORT) (bound s) ;;
  print ("Markdown server running at http://127.0.0.1:" ++ str PORT ++ "/") ;;
  print "Auto-refreshing every 2 seconds to show updates..." ;;
  httpd_serve_forever base markdown (arrivals s).

(** The module run under the name [name]: the block runs for the script,
    not for an import. *)
Definition run_module (name : string) (base : Base) (s : Startup) : P unit :=
  if String.eqb name "__main__" then main base s else ret tt.

(** The steps of a run, one kind at a time. *)
Definition installs (t : list step) : list (list string) :=
  flat_map (fun s => match s with Check_call argv => [argv] | _ => [] end) t.

Definition servers (t : list step) : list (string * Z) :=
  flat_map (fun s => match s with TCPServer host port => [(host, port)] | _ => [] end) t.

Definition printed (t : list step) : list string :=
  flat_map (fun s => match s with Print line => [line] | _ => [] end) t.

Definition handled (t : list step) : list (Request * M unit) :=
  flat_map (fun s => match s with Handled self out => [(self, out)] | _ => [] end) t.

End Main.

(** * Facts about text *)

Section TextFacts.

Local Open Scope string_scope.

Lemma append_nil_r (s : string) : s ++ EmptyString = s.
Proof. induction s as [|x s IH]; simpl; [reflexivity | now rewrite IH]. Qed.

Lemma append_assoc (a b c : string) : (a ++ b) ++ c = a ++ (b ++ c).
Proof. induction a as [|x a IH]; simpl; [reflexivity | now rewrite IH]. Qed.

Lemma length_append (a b : string) :
  String.length (a ++ b) = String.length a + String.length b.
Proof. induction a as [|x a IH]; simpl; [reflexivity | now rewrite IH]. Qed.

Lemma append_inv_head (a b c : string) : a ++ b = a ++ c -> b = c.
Proof.
  induction a as [|x a IH]; simpl; intros H; [exact H | ].
  injection H as H. auto.
Qed.

Lemma append_inv_tail (a b c : string) : a ++ c = b ++ c -> a = b.
Proof.
  revert b. induction a as [|x a IH]; intros [|y b] H; simpl in H.
  - reflexivity.
  - apply (f_equal String.length) in H. simpl in H. rewrite length_append in H. lia.
  - apply (f_equal String.length) in H. simpl in H. rewrite length_append in H. lia.
  - injection H as Hxy H. subst y. f_equal. now apply IH.
Qed.

(** An occurrence cannot run across a character the needle does not have. *)
Lemma starts_with_boundary (c : ascii) (b : string) :
  forall t n, mem c n = false ->
    starts_with n (t ++ String c b) = starts_with n t.
Proof.
  induction t as [|x t IH]; intros [|a n] Hc; simpl; try reflexivity.
  - simpl in Hc. apply orb_false_elim in Hc as [Hac _]. now rewrite Hac.
  - simpl in Hc. apply orb_false_elim in Hc as [_ Hn]. now rewrite IH.
Qed.

Lemma occurrences_cons (n : string) (x : ascii) (s : string) :
  occurrences n (String x s) =
  (if starts_with n (String x s) then 1 else 0) + occurrences n s.
Proof. reflexivity. Qed.

Lemma occurrences_boundary (c : ascii) (b n : string) :
  n <> EmptyString -> mem c n = false ->
  forall t, occurrences n (t ++ String c b) = occurrences n t + occurrences n (String c b).
Proof.
  intros Hn Hc. induction t as [|x t IH].
  - destruct n; [contradiction | reflexivity].
  - change (String x t ++ String c b) with (String x (t ++ String c b)).
    rewrite (occurrences_cons n x (t ++ String c b)), (occurrences_cons n x t), IH.
    change (String x (t ++ String c b)) with (String x t ++ String c b).
    rewrite (starts_with_boundary c b (String x t) n Hc). lia.
Qed.

(** The needle does not start at a character it does not have. *)
Lemma occurrences_skip (c : ascii) (n s : string) :
  n <> EmptyString -> mem c n = false ->
  occurrences n (String c s) = occurrences n s.
Proof.
  intros Hn Hc. rewrite occurrences_cons.
  destruct n as [|a n]; [contradiction | ].
  simpl in Hc. apply orb_false_elim in Hc as [Hac _].
  cbn [starts_with]. now rewrite Hac.
Qed.

(** Text before and after a text that is fenced by two characters the
    needle does not have adds its own occurrences and nothing else. *)
Lemma occurrences_fenced (c1 c2 : ascii) (n a f b : string) :
  n <> EmptyString -> mem c1 n = false -> mem c2 n = false ->
  occurrences n ((a ++ String c1 EmptyString) ++ f ++ String c2 b)
  = occurrences n (a ++ String c1 EmptyString) + occurrences n f
    + occurrences n (String c2 b).
Proof.
  intros Hn H1 H2.
  rewrite append_assoc. cbn [append].
  rewrite !(occurrences_boundary c1 _ n Hn H1 a).
  rewrite !(occurrences_skip c1 n _ Hn H1).
  rewrite (occurrences_boundary c2 b n Hn H2 f).
  destruct n; [contradiction | ]. cbn [occurrences starts_with]. lia.
Qed.

Lemma starts_with_append (n s b : string) :
  starts_with n s = true -> starts_with n (s ++ b) = true.
Proof.
  revert s. induction n as [|a n IH]; intros [|x s]; simpl; try easy.
  intros H. apply andb_prop in H as [H1 H2]. rewrite H1. simpl. now apply IH.
Qed.

Lemma occurrences_append_r (n s b : string) :
  occurrences n s <= occurrences n (s ++ b).
Proof.
  induction s as [|x s IH].
  - destruct n; simpl; [destruct b; simpl; lia | lia].
  - change (String x s ++ b) with (String x (s ++ b)).
    rewrite (occurrences_cons n x (s ++ b)), (occurrences_cons n x s).
    change (String x (s ++ b)) with (String x s ++ b).
    destruct (starts_with n (String x s)) eqn:E.
    + rewrite (starts_with_append _ _ b E). lia.
    + destruct (starts_with n (String x s ++ b)); lia.
Qed.

Lemma occurrences_append_l (n a s : string) :
  occurrences n s <= occurrences n (a ++ s).
Proof.
  induction a as [|x a IH]; [simpl; lia | ].
  change (String x a ++ s) with (String x (a ++ s)).
  rewrite (occurrences_cons n x (a ++ s)). lia.
Qed.

Lemma contains_inside (n a s b : string) :
  contains n s = true -> contains n (a ++ s ++ b) = true.
Proof.
  unfold contains. rewrite !negb_true_iff, !Nat.eqb_neq. intros H.
  pose proof (occurrences_append_r n s b).
  pose proof (occurrences_append_l n a (s ++ b)). lia.
Qed.



Lemma encode_utf8_inj (a b : string) : encode_utf8 a = encode_utf8 b -> a = b.
Proof.
  unfold encode_utf8. intros H.
  rewrite <- (string_of_list_byte_of_string a), <- (string_of_list_byte_of_string b).
  now rewrite H.
Qed.

Lemma decode_encode (s : string) : decode_utf8 (encode_utf8 s) = s.
Proof. apply string_of_list_byte_of_string. Qed.

Lemma among_In (name : string) (l : list string) : In name l -> Html.among name l = true.
Proof.
  intros H. unfold Html.among. apply existsb_exists.
  exists name. split; [exact H | apply String.eqb_refl].
Qed.

End TextFacts.

(** * Facts about the page *)

(** Templating never fails: the page is the fragment between two fixed texts. *)
Lemma format_page (fragment : string) :
  Format.format HTML_TEMPLATE (page_kwargs fragment) = Ok (Page.page fragment).
Proof. vm_compute. reflexivity. Qed.

Lemma page_inj (fragment1 fragment2 : string) :
  Page.page fragment1 = Page.page fragment2 -> fragment1 = fragment2.
Proof.
  unfold Page.page. intros H.
  apply append_inv_head in H. now apply append_inv_tail in H.
Qed.

(** The fragment stands between a space and a newline. *)
Lemma head_ends_with_space :
  Page.head
  = (substring 0 (String.length Page.head - 1) Page.head ++ String " " EmptyString)%string.
Proof. vm_compute. reflexivity. Qed.

Lemma tail_opens_with_newline :
  Page.tail = String (ascii_of_nat 10) (substring 1 (String.length Page.tail) Page.tail).
Proof. vm_compute. reflexivity. Qed.

(** A text without space or newline occurs in the page where it occurs in
    the head, in the fragment and in the tail. *)
Lemma occurrences_page (needle fragment : string) :
  needle <> EmptyString ->
  mem " " needle = false -> mem (ascii_of_nat 10) needle = false ->
  occurrences needle (Page.page fragment)
  = occurrences needle Page.head + occurrences needle fragment
    + occurrences needle Page.tail.
Proof.
  intros Hn Hs Hl. unfold Page.page.
  rewrite head_ends_with_space, tail_opens_with_newline.
  apply occurrences_fenced; assumption.
Qed.

(** * The handler, case by case *)

Section Runs.

Variables (self : Request) (w : World).

Ltac run :=
  unfold do_GET, path_exists, import_markdown, open_read, markdown_markdown,
    send_error, send_response, send_header, end_headers, wfile_write,
    perform, lift, failure, failure_message;
  cbn -[Format.format encode_utf8 HTML_TEMPLATE page_kwargs Page.page].

Lemma run_absent :
  exists_at_check w README = Ok false ->
  do_GET self w = (Ok tt, [Path_exists README; Send_error 404 "README.md not found"]).
Proof. intros Hx. run. rewrite Hx. reflexivity. Qed.

Lemma run_check_raises (e : exn) :
  exists_at_check w README = Raise e ->
  do_GET self w = (Ok tt, [Path_exists README; failure e]).
Proof. intros Hx. run. rewrite Hx. reflexivity. Qed.

Lemma run_import_raises (e : exn) :
  exists_at_check w README = Ok true ->
  markdown_module w = Raise e ->
  do_GET self w = (Ok tt, [Path_exists README; Import "markdown"; failure e]).
Proof. intros Hx Hm. run. rewrite Hx, Hm. reflexivity. Qed.

Lemma run_read_raises (md : converter) (e : exn) :
  exists_at_check w README = Ok true ->
  markdown_module w = Ok md ->
  read_node README (fs_at_open w README) = Raise e ->
  do_GET self w =
  (Ok tt, [Path_exists README; Import "markdown"; Open_read README "r" "utf-8"; failure e]).
Proof. intros Hx Hm Hr. run. rewrite Hx, Hm, Hr. reflexivity. Qed.

Lemma run_convert_raises (md : converter) (text : string) (e : exn) :
  exists_at_check w README = Ok true ->
  markdown_module w = Ok md ->
  read_node README (fs_at_open w README) = Ok text ->
  md text EXTENSIONS = Raise e ->
  do_GET self w =
  (Ok tt, [Path_exists README; Import "markdown"; Open_read README "r" "utf-8";
           Markdown text EXTENSIONS; failure e]).
Proof. intros Hx Hm Hr Hc. run. rewrite Hx, Hm, Hr, Hc. reflexivity. Qed.

Lemma run_renders (md : converter) (text fragment : string) :
  exists_at_check w README = Ok true ->
  markdown_module w = Ok md ->
  read_node README (fs_at_open w README) = Ok text ->
  md text EXTENSIONS = Ok fragment ->
  do_GET self w =
  (Ok tt, [Path_exists README; Import "markdown"; Open_read README "r" "utf-8";
           Markdown text EXTENSIONS;
           Send_response 200; Send_header "Content-type" "text/html; charset=utf-8";
           End_headers; Wfile_write (encode_utf8 (Page.page fragment))]).
Proof.
  intros Hx Hm Hr Hc. run. rewrite Hx, Hm, Hr, Hc, format_page. reflexivity.
Qed.

End Runs.

(** Every request falls under one of the three outcomes. *)
Lemma do_GET_outcome (self : Request) (w : World) :
  (exists_at_check w README = Ok false /\
   do_GET self w = (Ok tt, [Path_exists README; Send_error 404 "README.md not found"]))
  \/
  (exists (e : exn) (before : list call),
     raised_in w e /\
     do_GET self w = (Ok tt, before ++ [failure e]) /\
     Response.status before = None /\ Response.headers before = [] /\
     Response.body before = [] /\ Response.error_message before = None)
  \/
  (exists text fragment : string,
     rendered w text fragment /\
     do_GET self w =
     (Ok tt, [Path_exists README; Import "markdown"; Open_read README "r" "utf-8";
              Markdown text EXTENSIONS;
              Send_response 200; Send_header "Content-type" "text/html; charset=utf-8";
              End_headers; Wfile_write (encode_utf8 (Page.page fragment))])).
Proof.
  destruct (exists_at_check w README) as [[ | ] | e] eqn:Hx.
  - right.
    destruct (markdown_module w) as [md | e] eqn:Hm.
    2: { left. exists e, [Path_exists README; Import "markdown"].
         repeat split; [now apply import_raises | now apply run_import_raises]. }
    destruct (read_node README (fs_at_open w README)) as [src | e] eqn:Hr.
    2: { left. exists e, [Path_exists README; Import "markdown"; Open_read README "r" "utf-8"].
         repeat split;
           [now apply (read_raises w e md) | now apply (run_read_raises self w md)]. }
    destruct (md src EXTENSIONS) as [fragment | e] eqn:Hc.
    2: { left.
         exists e, [Path_exists README; Import "markdown"; Open_read README "r" "utf-8";
                    Markdown src EXTENSIONS].
         repeat split;
           [ now apply (convert_raises w e md src)
           | now apply (run_convert_raises self w md) ]. }
    right. exists src, fragment. split.
    + split; [exact Hx | exists md; auto].
    + now apply (run_renders self w md).
  - left. split; [reflexivity | now apply run_absent].
  - right. left. exists e, [Path_exists README].
    repeat split; [now apply check_raises | now apply run_check_raises].
Qed.

Lemma status_failure (before : list call) (e : exn) :
  Response.status before = None ->
  Response.status (before ++ [failure e]) = Some 500%Z.
Proof.
  induction before as [|c before IH]; intros H; [reflexivity | ].
  destruct c; simpl in *; auto; discriminate.
Qed.

Lemma error_message_failure (before : list call) (e : exn) :
  Response.error_message before = None ->
  Response.error_message (before ++ [failure e]) = Some (failure_message e).
Proof.
  induction before as [|c before IH]; intros H; [reflexivity | ].
  destruct c; simpl in *; auto; discriminate.
Qed.

Lemma headers_failure (before : list call) (e : exn) :
  Response.headers (before ++ [failure e]) = Response.headers before.
Proof.
  induction before as [|c before IH]; [reflexivity | ].
  destruct c; simpl; auto. now rewrite IH.
Qed.

Lemma body_failure (before : list call) (e : exn) :
  Response.body (before ++ [failure e]) = Response.body before.
Proof.
  induction before as [|c before IH]; [reflexivity | ].
  destruct c; simpl; auto. now rewrite IH.
Qed.

(** The outcome of a failing request is fixed by the exception. *)
Lemma raised_in_unique (w : World) (e1 e2 : exn) :
  raised_in w e1 -> raised_in w e2 -> e1 = e2.
Proof.
  intros [H1 | H1 M1 | m1 H1 M1 R1 | m1 s1 H1 M1 R1 C1]
         [H2 | H2 M2 | m2 H2 M2 R2 | m2 s2 H2 M2 R2 C2]; congruence.
Qed.

Lemma raised_not_rendered (w : World) (e : exn) (text fragment : string) :
  raised_in w e -> rendered w text fragment -> False.
Proof.
  intros [H1 | H1 M1 | m1 H1 M1 R1 | m1 s1 H1 M1 R1 C1] [Hx [md [Hm [Hr Hc]]]];
    congruence.
Qed.

Lemma raised_not_absent (w : World) (e : exn) :
  raised_in w e -> exists_at_check w README = Ok false -> False.
Proof.
  intros [H1 | H1 M1 | m1 H1 M1 R1 | m1 s1 H1 M1 R1 C1] Hx; congruence.
Qed.

(** What the client gets when [e] is raised. *)
Lemma failure_observed (self : Request) (w : World) (e : exn) :
  raised_in w e ->
  exists before : list call,
    do_GET self w = (Ok tt, before ++ [failure e]) /\
    Response.status (before ++ [failure e]) = Some 500%Z /\
    Response.error_message (before ++ [failure e]) = Some (failure_message e) /\
    Response.headers (before ++ [failure e]) = [] /\
    Response.body (before ++ [failure e]) = [].
Proof.
  intros Hr.
  destruct (do_GET_outcome self w) as [[Hx _] | [H | [text [fragment [H _]]]]].
  - exfalso. eapply raised_not_absent; eassumption.
  - destruct H as [e' [before [Hr' [Hrun [Hs [Hh [Hb He]]]]]]].
    assert (e' = e) by (eapply raised_in_unique; eassumption). subst e'.
    exists before. split; [exact Hrun | ].
    rewrite status_failure, error_message_failure, headers_failure, body_failure; auto.
  - exfalso. eapply raised_not_rendered; eassumption.
Qed.

(** A 200 answer is a rendered page. *)
Lemma status_200_rendered (self : Request) (w : World) :
  Response.status (snd (do_GET self w)) = Some 200%Z ->
  exists text fragment : string,
    rendered w text fragment /\
    Response.body (snd (do_GET self w)) = encode_utf8 (Page.page fragment).
Proof.
  intros Hs.
  destruct (do_GET_outcome self w)
    as [[_ H] | [[e [before [_ [H [Hb _]]]]] | [text [fragment [Hr H]]]]];
    rewrite H in Hs |- *; cbn [snd] in *.
  - discriminate Hs.
  - rewrite (status_failure before e Hb) in Hs. discriminate Hs.
  - exists text, fragment. split; [exact Hr | ].
    cbn [Response.body]. apply app_nil_r.
Qed.

(** A GET is dispatched to [do_GET], whatever the base class. *)
Lemma GET_is_do_GET (base : Base) (self : Request) (w : World) :
  command self = "GET"%string -> handle_one_request base self w = do_GET self w.
Proof.
  intros H. unfold handle_one_request, getattr, MarkdownHandler_dict.
  rewrite H. reflexivity.
Qed.

(** * The claims *)



(** C2. Two GET requests that meet the same world (the same existence and
    contents of [README.md]) are answered alike, whatever their paths: the
    same calls are made, hence the same status, headers and body. *)
Theorem path_selects_nothing (self1 self2 : Request) (w : World) :
  do_GET self1 w = do_GET self2 w /\
  Response.status (snd (do_GET self1 w)) = Response.status (snd (do_GET self2 w)) /\
  Response.headers (snd (do_GET self1 w)) = Response.headers (snd (do_GET self2 w)) /\
  Response.body (snd (do_GET self1 w)) = Response.body (snd (do_GET self2 w)).
Proof. repeat split. Qed.

(** C3, as the code has it.  The dispatch renders for GET; for any other
    method it never reaches the renderer through [MarkdownHandler], which
    defines [do_GET] alone: the request goes to the base class's handler of
    that method, or to its refusal when it has none. *)
Theorem only_GET_is_rendered (base : Base) (self : Request) (w : World) :
  handle_one_request base self w =
  if String.eqb (command self) "GET" then do_GET self w
  else match base_dict base ("do_" ++ command self) with
       | Some m => m self w
       | None => unsupported base self w
       end.
Proof.
  unfold handle_one_request, getattr, MarkdownHandler_dict.
  change (String.eqb ("do_" ++ command self) "do_GET")
    with (String.eqb (command self) "GET").
  destruct (String.eqb (command self) "GET"); reflexivity.
Qed.

(** C3 fails for POST: the file is rendered for GET, and the POST is refused
    without any call to the renderer. *)
Lemma post_is_not_rendered :
  handle_one_request Sample.http_server
    {| command := "POST"; path := "/" |} (Sample.steady "hello" Sample.markdown)
  <> handle_one_request Sample.http_server
    {| command := "GET"; path := "/" |} (Sample.steady "hello" Sample.markdown)
  /\
  Response.status (snd (handle_one_request Sample.http_server
    {| command := "GET"; path := "/" |} (Sample.steady "hello" Sample.markdown)))
  = Some 200%Z /\
  handle_one_request Sample.http_server
    {| command := "POST"; path := "/" |} (Sample.steady "hello" Sample.markdown)
  = (Ok tt, [Send_error 501 "Unsupported method ('POST')"]).
Proof.
  split; [ | split; reflexivity].
  intros H. apply (f_equal (fun m => Response.status (snd m))) in H.
  vm_compute in H. discriminate H.
Qed.

(** C4. A GET made while [README.md] does not exist is answered with status
    404 and the plain message [README.md not found], which names the file;
    the handler neither opens the file nor calls the converter. *)
Theorem missing_file_response (self : Request) (w : World) :
  exists_at_check w README = Ok false ->
  exists (t : list call) (message : string),
    do_GET self w = (Ok tt, t) /\
    Response.status t = Some 404%Z /\
    Response.error_message t = Some message /\
    contains README message = true /\
    Response.reads_or_converts t = false /\
    t = [Path_exists README; Send_error 404 "README.md not found"].
Proof.
  intros Hx. eexists; eexists. split; [apply (run_absent self w Hx) | ].
  repeat split.
Qed.

Lemma missing_file_response_witness :
  exists (t : list call) (message : string),
    do_GET (Sample.get "/") (Sample.world Absent Absent Sample.markdown) = (Ok tt, t) /\
    Response.status t = Some 404%Z /\
    Response.error_message t = Some message /\
    contains README message = true /\
    Response.reads_or_converts t = false /\
    t = [Path_exists README; Send_error 404 "README.md not found"].
Proof. apply missing_file_response. reflexivity. Defined.



(** C6, as the code has it.  The template puts one reload script, with a
    delay of 2000 ms, after the article of every 200 answer; the document's
    own scripts are carried over with the fragment, so the body holds one
    reload call, and one script tag, more than the converted fragment does. *)
Theorem template_adds_one_reload_script (self : Request) (w : World) :
  Response.status (snd (do_GET self w)) = Some 200%Z ->
  exists text fragment : string,
    rendered w text fragment /\
    decode_utf8 (Response.body (snd (do_GET self w)))
      = (Page.head ++ fragment ++ Page.tail)%string /\
    occurrences Page.reload_script Page.head = 0 /\
    occurrences Page.reload_script Page.tail = 1 /\
    occurrences Page.reload_call (decode_utf8 (Response.body (snd (do_GET self w))))
      = occurrences Page.reload_call fragment + 1 /\
    occurrences Page.script_open (decode_utf8 (Response.body (snd (do_GET self w))))
      = occurrences Page.script_open fragment + 1.
Proof.
  intros Hs. destruct (status_200_rendered self w Hs) as [text [fragment [Hr Hb]]].
  exists text, fragment. rewrite Hb, decode_encode.
  split; [exact Hr | ]. split; [reflexivity | ].
  split; [vm_compute; reflexivity | ]. split; [vm_compute; reflexivity | ].
  split.
  - rewrite (occurrences_page Page.reload_call fragment);
      [ | discriminate | reflexivity | reflexivity].
    replace (occurrences Page.reload_call Page.head) with 0 by (vm_compute; reflexivity).
    replace (occurrences Page.reload_call Page.tail) with 1 by (vm_compute; reflexivity).
    lia.
  - rewrite (occurrences_page Page.script_open fragment);
      [ | discriminate | reflexivity | reflexivity].
    replace (occurrences Page.script_open Page.head) with 0 by (vm_compute; reflexivity).
    replace (occurrences Page.script_open Page.tail) with 1 by (vm_compute; reflexivity).
    lia.
Qed.

Lemma template_adds_one_reload_script_witness :
  exists text fragment : string,
    rendered (Sample.steady "hello" Sample.markdown) text fragment /\
    occurrences Page.reload_call
      (decode_utf8 (Response.body (snd (do_GET (Sample.get "/")
         (Sample.steady "hello" Sample.markdown)))))
    = occurrences Page.reload_call fragment + 1.
Proof.
  destruct (template_adds_one_reload_script (Sample.get "/")
              (Sample.steady "hello" Sample.markdown))
    as [text [fragment [Hr [_ [_ [_ [Hn _]]]]]]].
  - reflexivity.
  - exists text, fragment. split; [exact Hr | exact Hn].
Defined.

(** C6 fails for a document that carries a reload script of its own, with
    the same delay: the 200 answer then holds two. *)
Lemma document_script_is_a_second_reload :
  Response.status (snd (do_GET (Sample.get "/")
    (Sample.steady Sample.script_source Sample.markdown))) = Some 200%Z /\
  occurrences Page.script_open
    (decode_utf8 (Response.body (snd (do_GET (Sample.get "/")
       (Sample.steady Sample.script_source Sample.markdown))))) = 2 /\
  occurrences Page.reload_call
    (decode_utf8 (Response.body (snd (do_GET (Sample.get "/")
       (Sample.steady Sample.script_source Sample.markdown))))) = 2 /\
  occurrences Page.delay_2000
    (decode_utf8 (Response.body (snd (do_GET (Sample.get "/")
       (Sample.steady Sample.script_source Sample.markdown))))) = 2.
Proof. vm_compute. repeat split. Qed.

(** C7. A rendered request calls the converter once, on the text of the
    file, with the extensions [tables], [fenced_code] and [codehilite]; the
    fragment is carried into the body as it is.  So, the library's table
    extension turning table syntax into a [table] element, a document with
    table syntax is answered with a body that contains [<table>]. *)
Theorem tables_are_rendered
    (self : Request) (w : World) (md : converter) (text : string)
    (table_syntax : string -> Prop) :
  (forall (source : string) (extensions : list string),
     In "tables"%string extensions -> table_syntax source ->
     exists fragment, md source extensions = Ok fragment /\
                      contains "<table>" fragment = true) ->
  exists_at_check w README = Ok true ->
  markdown_module w = Ok md ->
  fs_at_open w README = Holds text ->
  table_syntax text ->
  exists t : list call,
    do_GET self w = (Ok tt, t) /\
    Response.conversions t = [(text, ["tables"; "fenced_code"; "codehilite"]%string)] /\
    Response.status t = Some 200%Z /\
    contains "<table>" (decode_utf8 (Response.body t)) = true.
Proof.
  intros Hlib Hx Hm Ho Ht.
  destruct (Hlib text EXTENSIONS (or_introl eq_refl) Ht) as [fragment [Hc Hf]].
  assert (read_node README (fs_at_open w README) = Ok text) as Hr by now rewrite Ho.
  eexists. split; [apply (run_renders self w md text fragment Hx Hm Hr Hc) | ].
  split; [reflexivity | ]. split; [reflexivity | ].
  cbn [Response.body]. rewrite app_nil_r, decode_encode.
  now apply contains_inside.
Qed.

Lemma tables_are_rendered_witness :
  exists t : list call,
    do_GET (Sample.get "/") (Sample.steady Sample.table_source Sample.markdown)
      = (Ok tt, t) /\
    Response.conversions t
      = [(Sample.table_source, ["tables"; "fenced_code"; "codehilite"]%string)] /\
    Response.status t = Some 200%Z /\
    contains "<table>" (decode_utf8 (Response.body t)) = true.
Proof.
  apply (tables_are_rendered _ _ Sample.markdown Sample.table_source
           (fun source => source = Sample.table_source)).
  - intros source extensions Hin Hs. subst source.
    exists Sample.table_fragment. split; [ | reflexivity].
    unfold Sample.markdown. rewrite (among_In _ _ Hin). reflexivity.
  - reflexivity.
  - reflexivity.
  - reflexivity.
  - reflexivity.
Defined.

(** C8, as the code has it.  Of two GET requests served one after the
    other, each opens [README.md] once and is answered with the page of the
    text it reads then; nothing is kept from one request to the next, so
    equal texts give equal bodies, and an edit shows in the next body as far
    as it shows in the converted fragment: the two bodies differ exactly
    when the two fragments do. *)
Theorem body_follows_the_file
    (base : Base) (self1 self2 : Request) (w1 w2 : World) (md : converter)
    (text1 text2 fragment1 fragment2 : string) :
  command self1 = "GET"%string -> command self2 = "GET"%string ->
  exists_at_check w1 README = Ok true -> markdown_module w1 = Ok md ->
  fs_at_open w1 README = Holds text1 -> md text1 EXTENSIONS = Ok fragment1 ->
  exists_at_check w2 README = Ok true -> markdown_module w2 = Ok md ->
  fs_at_open w2 README = Holds text2 -> md text2 EXTENSIONS = Ok fragment2 ->
  exists t1 t2 : list call,
    serve_forever base [(self1, w1); (self2, w2)] = [(Ok tt, t1); (Ok tt, t2)] /\
    opens t1 = 1 /\ opens t2 = 1 /\
    Response.body t1 = encode_utf8 (Page.page fragment1) /\
    Response.body t2 = encode_utf8 (Page.page fragment2) /\
    (text1 = text2 -> Response.body t1 = Response.body t2) /\
    (Response.body t1 = Response.body t2 <-> fragment1 = fragment2).
Proof.
  intros G1 G2 Hx1 Hm1 Ho1 Hc1 Hx2 Hm2 Ho2 Hc2.
  assert (read_node README (fs_at_open w1 README) = Ok text1) as Hr1 by now rewrite Ho1.
  assert (read_node README (fs_at_open w2 README) = Ok text2) as Hr2 by now rewrite Ho2.
  unfold serve_forever. cbn [map fst snd].
  rewrite (GET_is_do_GET base self1 w1 G1), (GET_is_do_GET base self2 w2 G2).
  rewrite (run_renders self1 w1 md text1 fragment1 Hx1 Hm1 Hr1 Hc1).
  rewrite (run_renders self2 w2 md text2 fragment2 Hx2 Hm2 Hr2 Hc2).
  eexists; eexists. split; [reflexivity | ].
  cbn [Response.body opens]. rewrite !app_nil_r.
  split; [reflexivity | ]. split; [reflexivity | ].
  split; [reflexivity | ]. split; [reflexivity | ].
  split.
  - intros E. subst text2. rewrite Hc1 in Hc2. injection Hc2 as E. now rewrite E.
  - split.
    + intros E. apply page_inj. now apply encode_utf8_inj.
    + intros E. now rewrite E.
Qed.

Lemma body_follows_the_file_witness :
  exists t1 t2 : list call,
    serve_forever Sample.http_server
      [(Sample.get "/", Sample.steady "before" Sample.markdown);
       (Sample.get "/", Sample.steady "after" Sample.markdown)]
    = [(Ok tt, t1); (Ok tt, t2)] /\
    Response.body t1 = encode_utf8 (Page.page "<p>before</p>") /\
    Response.body t2 = encode_utf8 (Page.page "<p>after</p>") /\
    Response.body t1 <> Response.body t2.
Proof.
  destruct (body_follows_the_file Sample.http_server (Sample.get "/") (Sample.get "/")
              (Sample.steady "before" Sample.markdown)
              (Sample.steady "after" Sample.markdown)
              Sample.markdown "before" "after" "<p>before</p>" "<p>after</p>")
    as [t1 [t2 [H [_ [_ [B1 [B2 [_ Hiff]]]]]]]].
  1, 2, 3, 4, 5, 6, 7, 8, 9, 10: reflexivity.
  exists t1, t2. repeat (split; [assumption | ]).
  intros E. apply Hiff in E. discriminate E.
Defined.

(** C8 fails for an edit the converter does not show: an empty file and a
    file of one newline are both rendered to the empty fragment, and the two
    requests get the same body. *)
Lemma blank_edit_leaves_the_body :
  EmptyString <> nl /\
  exists t1 t2 : list call,
    serve_forever Sample.http_server
      [(Sample.get "/", Sample.steady EmptyString Sample.markdown);
       (Sample.get "/", Sample.steady nl Sample.markdown)]
    = [(Ok tt, t1); (Ok tt, t2)] /\
    Response.status t1 = Some 200%Z /\ Response.status t2 = Some 200%Z /\
    Response.body t1 = Response.body t2.
Proof.
  split; [discriminate | ].
  eexists; eexists. split; [vm_compute; reflexivity | ].
  repeat split.
Qed.

(** C9. When [README.md] exists and is empty, and the converter gives the
    empty fragment for it, the answer has status 200 and its body is a
    well-formed HTML document whose article element holds nothing but the
    template's white space. *)
Theorem empty_file_response (self : Request) (w : World) (md : converter) :
  exists_at_check w README = Ok true ->
  markdown_module w = Ok md ->
  fs_at_open w README = Holds EmptyString ->
  md EmptyString EXTENSIONS = Ok EmptyString ->
  exists t : list call,
    do_GET self w = (Ok tt, t) /\
    Response.status t = Some 200%Z /\
    Html.well_formed (decode_utf8 (Response.body t)) = true /\
    Html.elements (decode_utf8 (Response.body t))
      = Some ["html"; "head"; "meta"; "meta"; "title"; "style"; "body"; "article";
              "script"]%string /\
    exists inner : string,
      between Page.article_open Page.article_close (decode_utf8 (Response.body t))
        = Some inner /\
      is_blank inner = true.
Proof.
  intros Hx Hm Ho Hc.
  assert (read_node README (fs_at_open w README) = Ok EmptyString) as Hr by now rewrite Ho.
  eexists. split; [apply (run_renders self w md _ _ Hx Hm Hr Hc) | ].
  split; [reflexivity | ].
  cbn [Response.body]. rewrite app_nil_r, decode_encode.
  split; [vm_compute; reflexivity | ]. split; [vm_compute; reflexivity | ].
  eexists. split; vm_compute; reflexivity.
Qed.

Lemma empty_file_response_witness :
  exists t : list call,
    do_GET (Sample.get "/") (Sample.steady EmptyString Sample.markdown) = (Ok tt, t) /\
    Response.status t = Some 200%Z /\
    Html.well_formed (decode_utf8 (Response.body t)) = true.
Proof.
  destruct (empty_file_response (Sample.get "/")
              (Sample.steady EmptyString Sample.markdown) Sample.markdown)
    as [t [H1 [H2 [H3 _]]]].
  1, 2, 3, 4: reflexivity.
  exists t. repeat split; assumption.
Defined.

(** C10. The 404 answer is decided by the existence check alone.  When the
    file is there at the check and opening, reading or decoding it then
    raises (the file may have been removed in between), the answer is 500
    with the exception's description, not 404. *)
Theorem not_found_is_decided_by_the_check
    (self : Request) (w : World) (md : converter) (e : exn) :
  exists_at_check w README = Ok true ->
  markdown_module w = Ok md ->
  read_node README (fs_at_open w README) = Raise e ->
  Response.status (snd (do_GET self w)) = Some 500%Z /\
  Response.status (snd (do_GET self w)) <> Some 404%Z /\
  Response.error_message (snd (do_GET self w))
    = Some ("Error rendering markdown: " ++ exn_str e)%string /\
  (forall (self' : Request) (w' : World),
     Response.status (snd (do_GET self' w')) = Some 404%Z <->
     exists_at_check w' README = Ok false).
Proof.
  intros Hx Hm Hr.
  destruct (failure_observed self w e (read_raises w e md Hx Hm Hr))
    as [before [Hrun [Hs [He _]]]].
  rewrite Hrun. cbn [snd]. rewrite Hs, He.
  split; [reflexivity | ]. split; [discriminate | ]. split; [reflexivity | ].
  intros self' w'.
  destruct (do_GET_outcome self' w')
    as [[Hx' H] | [[e' [b' [Hr' [H [Hs' _]]]]] | [text [fragment [[Hx' _] H]]]]];
    rewrite H; cbn [snd].
  - split; [intros _; exact Hx' | reflexivity].
  - rewrite (status_failure b' e' Hs').
    split; [discriminate | intros Ha; exfalso; eapply raised_not_absent; eassumption].
  - split; [discriminate | congruence].
Qed.

Lemma not_found_is_decided_by_the_check_witness :
  Response.status (snd (do_GET (Sample.get "/")
    (Sample.world (Holds "# notes") Absent Sample.markdown))) = Some 500%Z /\
  Response.error_message (snd (do_GET (Sample.get "/")
    (Sample.world (Holds "# notes") Absent Sample.markdown)))
  = Some "Error rendering markdown: [Errno 2] No such file or directory: 'README.md'".
Proof.
  destruct (not_found_is_decided_by_the_check (Sample.get "/")
      (Sample.world (Holds "# notes") Absent Sample.markdown)
      Sample.markdown (FileNotFoundError README)) as [Hs [_ [He _]]].
  - reflexivity.
  - reflexivity.
  - reflexivity.
  - split; [exact Hs | exact He].
Defined.

(** * Further properties: start-up *)

Section StartupFacts.

Import Main.

Variables (base : Base) (s : Startup).

Local Abbreviation served lib :=
  (map (fun a => Handled (fst a) (handle_one_request base (fst a) (world_of lib (snd a))))
       (arrivals s)).

Lemma installs_app (a b : list step) : installs (a ++ b) = installs a ++ installs b.
Proof. apply flat_map_app. Qed.

Lemma servers_app (a b : list step) : servers (a ++ b) = servers a ++ servers b.
Proof. apply flat_map_app. Qed.

Lemma printed_app (a b : list step) : printed (a ++ b) = printed a ++ printed b.
Proof. apply flat_map_app. Qed.

Lemma handled_app (a b : list step) : handled (a ++ b) = handled a ++ handled b.
Proof. apply flat_map_app. Qed.

Lemma served_steps (lib : converter) :
  installs (served lib) = [] /\ servers (served lib) = [] /\ printed (served lib) = [] /\
  handled (served lib)
  = map (fun a => (fst a, handle_one_request base (fst a) (world_of lib (snd a))))
        (arrivals s).
Proof.
  unfold installs, servers, printed, handled.
  induction (arrivals s) as [|a l [I1 [I2 [I3 I4]]]]; [repeat split | ].
  cbn [map flat_map app]. rewrite I1, I2, I3, I4. repeat split.
Qed.

(** The runs of the block, by what the world answers. *)
Ltac conjuncts :=
  repeat match goal with |- _ /\ _ => split end; first [assumption | reflexivity].

Lemma main_runs :
  (exists lib, first_import s = Ok lib /\ bound s = Ok tt /\
     main base s =
     (Ok tt, [Import_module "markdown"; TCPServer EmptyString 8000;
              Print "Markdown server running at http://127.0.0.1:8000/";
              Print "Auto-refreshing every 2 seconds to show updates..."]
             ++ served lib))
  \/
  (exists lib e, first_import s = Ok lib /\ bound s = Raise e /\
     main base s = (Raise e, [Import_module "markdown"; TCPServer EmptyString 8000]))
  \/
  (exists e, first_import s = Raise e /\ is_ImportError s e = false /\
     main base s = (Raise e, [Import_module "markdown"]))
  \/
  (exists e e', first_import s = Raise e /\ is_ImportError s e = true /\
     pip_install s = Raise e' /\
     main base s =
     (Raise e', [Import_module "markdown"; Print "Installing markdown library...";
                 Import_module "subprocess"; Check_call ["pip3"; "install"; "markdown"]]))
  \/
  (exists e e', first_import s = Raise e /\ is_ImportError s e = true /\
     pip_install s = Ok tt /\ second_import s = Raise e' /\
     main base s =
     (Raise e', [Import_module "markdown"; Print "Installing markdown library...";
                 Import_module "subprocess"; Check_call ["pip3"; "install"; "markdown"];
                 Import_module "markdown"]))
  \/
  (exists e lib e', first_import s = Raise e /\ is_ImportError s e = true /\
     pip_install s = Ok tt /\ second_import s = Ok lib /\ bound s = Raise e' /\
     main base s =
     (Raise e', [Import_module "markdown"; Print "Installing markdown library...";
                 Import_module "subprocess"; Check_call ["pip3"; "install"; "markdown"];
                 Import_module "markdown"; TCPServer EmptyString 8000]))
  \/
  (exists e lib, first_import s = Raise e /\ is_ImportError s e = true /\
     pip_install s = Ok tt /\ second_import s = Ok lib /\ bound s = Ok tt /\
     main base s =
     (Ok tt, [Import_module "markdown"; Print "Installing markdown library...";
              Import_module "subprocess"; Check_call ["pip3"; "install"; "markdown"];
              Import_module "markdown"; TCPServer EmptyString 8000;
              Print "Markdown server running at http://127.0.0.1:8000/";
              Print "Auto-refreshing every 2 seconds to show updates..."]
             ++ served lib)).
Proof.
  unfold main, try_except_of, httpd_serve_forever, print, perform, bind.
  destruct (first_import s) as [lib | e] eqn:H1.
  - destruct (bound s) as [[] | e'] eqn:Hb.
    + left. exists lib. conjuncts.
    + right; left. exists lib, e'. conjuncts.
  - destruct (is_ImportError s e) eqn:Hi.
    2: { right; right; left. exists e. conjuncts. }
    destruct (pip_install s) as [[] | e'] eqn:Hp.
    2: { right; right; right; left. exists e, e'. conjuncts. }
    destruct (second_import s) as [lib | e'] eqn:H2.
    2: { right; right; right; right; left. exists e, e'. conjuncts. }
    destruct (bound s) as [[] | e'] eqn:Hb.
    + right; right; right; right; right; right. exists e, lib. conjuncts.
    + right; right; right; right; right; left. exists e, lib, e'. conjuncts.
Qed.

End StartupFacts.


(** X1. [pip3 install markdown] is run exactly when the first import raises
    an [ImportError], and then once; a library that imports, or an import
    that fails in another way, installs nothing. *)
Theorem pip_runs_only_for_ImportError (base : Base) (s : Main.Startup) :
  (Main.installs (snd (Main.main base s)) = [] \/
   Main.installs (snd (Main.main base s)) = [["pip3"; "install"; "markdown"]%string]) /\
  (Main.installs (snd (Main.main base s)) <> [] <->
   exists e, Main.first_import s = Raise e /\ Main.is_ImportError s e = true).
Proof.
  destruct (main_runs base s)
    as [[lib [H1 [Hb R]]] | [[lib [e [H1 [Hb R]]]] | [[e [H1 [Hi R]]]
       | [[e [e' [H1 [Hi [Hp R]]]]] | [[e [e' [H1 [Hi [Hp [H2 R]]]]]]
       | [[e [lib [e' [H1 [Hi [Hp [H2 [Hb R]]]]]]]] | [e [lib [H1 [Hi [Hp [H2 [Hb R]]]]]]]]]]]]];
    rewrite R; cbn [snd]; rewrite ?installs_app;
    try rewrite (proj1 (served_steps base s lib)); cbn.
  - split; [now left | ]. split; [congruence | intros [e [E _]]; congruence].
  - split; [now left | ]. split; [congruence | intros [e0 [E _]]; congruence].
  - split; [now left | ]. split; [congruence | intros [e0 [E Hi']]; congruence].
  - split; [now right | ]. split; [intros _; now exists e | discriminate].
  - split; [now right | ]. split; [intros _; now exists e | discriminate].
  - split; [now right | ]. split; [intros _; now exists e | discriminate].
  - split; [now right | ]. split; [intros _; now exists e | discriminate].
Qed.

(** X2. A start-up that fails serves nothing: when the block ends with an
    exception, no request has been handled and no address has been
    announced, and a server was bound only if the exception is the one of
    the bind itself. *)
Theorem failed_startup_serves_nothing (base : Base) (s : Main.Startup) (e : exn) :
  fst (Main.main base s) = Raise e ->
  Main.handled (snd (Main.main base s)) = [] /\
  (forall line, In line (Main.printed (snd (Main.main base s))) ->
                line = "Installing markdown library..."%string) /\
  (Main.servers (snd (Main.main base s)) = [] \/ Main.bound s = Raise e).
Proof.
  intros F.
  destruct (main_runs base s)
    as [[lib [H1 [Hb R]]] | [[lib [e1 [H1 [Hb R]]]] | [[e1 [H1 [Hi R]]]
       | [[e1 [e' [H1 [Hi [Hp R]]]]] | [[e1 [e' [H1 [Hi [Hp [H2 R]]]]]]
       | [[e1 [lib [e' [H1 [Hi [Hp [H2 [Hb R]]]]]]]] | [e1 [lib [H1 [Hi [Hp [H2 [Hb R]]]]]]]]]]]]];
    rewrite R in F |- *; cbn [fst snd] in *; try discriminate F;
    injection F as F; subst; cbn.
  all: split; [reflexivity | split; [ | first [now left | now right]]].
  all: first [ intros line [H | H]; [now symmetry | contradiction] | intros line [] ].
Qed.

Lemma failed_startup_serves_nothing_witness :
  Main.handled (snd (Main.main Sample.http_server
    {| Main.first_import := Raise (mk_exn "ModuleNotFoundError" "No module named 'markdown'");
       Main.is_ImportError := fun _ => true;
       Main.pip_install := Raise (mk_exn "CalledProcessError"
         "Command '['pip3', 'install', 'markdown']' returned non-zero exit status 1.");
       Main.second_import := Ok Sample.markdown;
       Main.bound := Ok tt;
       Main.arrivals := [(Sample.get "/", {| Main.check := fun _ => Ok true;
                                             Main.opened := fun _ => Holds "x" |})] |})) = [].
Proof.
  apply (failed_startup_serves_nothing Sample.http_server _
           (mk_exn "CalledProcessError"
              "Command '['pip3', 'install', 'markdown']' returned non-zero exit status 1.")).
  reflexivity.
Defined.

(** X3. A start-up that reaches the serving loop has bound one server, on
    every interface at port 8000, has announced that port's address, and
    hands every arriving request, in order, to the handler's dispatch. *)
Theorem started_server_serves_arrivals (base : Base) (s : Main.Startup) :
  fst (Main.main base s) = Ok tt ->
  Main.servers (snd (Main.main base s)) = [(EmptyString, 8000%Z)] /\
  In "Markdown server running at http://127.0.0.1:8000/"%string
     (Main.printed (snd (Main.main base s))) /\
  map fst (Main.handled (snd (Main.main base s))) = map fst (Main.arrivals s) /\
  exists lib : converter,
    Main.handled (snd (Main.main base s))
    = map (fun a => (fst a, handle_one_request base (fst a) (Main.world_of lib (snd a))))
          (Main.arrivals s).
Proof.
  intros F.
  destruct (main_runs base s)
    as [[lib [H1 [Hb R]]] | [[lib [e1 [H1 [Hb R]]]] | [[e1 [H1 [Hi R]]]
       | [[e1 [e' [H1 [Hi [Hp R]]]]] | [[e1 [e' [H1 [Hi [Hp [H2 R]]]]]]
       | [[e1 [lib [e' [H1 [Hi [Hp [H2 [Hb R]]]]]]]] | [e1 [lib [H1 [Hi [Hp [H2 [Hb R]]]]]]]]]]]]];
    rewrite R in F |- *; cbn [fst snd] in *; try discriminate F;
    destruct (served_steps base s lib) as [_ [S2 [S3 S4]]];
    rewrite servers_app, printed_app, handled_app, S2, S3, S4; cbn.
  all: split; [reflexivity | split; [tauto | split; [ | exists lib; reflexivity]]].
  all: rewrite map_map; reflexivity.
Qed.

Lemma started_server_serves_arrivals_witness :
  Main.servers (snd (Main.main Sample.http_server
    {| Main.first_import := Ok Sample.markdown;
       Main.is_ImportError := fun _ => true;
       Main.pip_install := Ok tt;
       Main.second_import := Ok Sample.markdown;
       Main.bound := Ok tt;
       Main.arrivals := [(Sample.get "/", {| Main.check := fun _ => Ok true;
                                             Main.opened := fun _ => Holds "x" |})] |}))
  = [(EmptyString, 8000%Z)].
Proof. apply started_server_serves_arrivals. reflexivity. Defined.



(** * Further properties: the handler *)

(** The calls of a request, in full, by what the world answers. *)
Lemma do_GET_calls (self : Request) (w : World) :
  (exists_at_check w README = Ok false /\
   snd (do_GET self w) = [Path_exists README; Send_error 404 "README.md not found"])
  \/
  (exists e, raised_in w e /\
     (snd (do_GET self w) = [Path_exists README; failure e] \/
      snd (do_GET self w) = [Path_exists README; Import "markdown"; failure e] \/
      snd (do_GET self w)
      = [Path_exists README; Import "markdown"; Open_read README "r" "utf-8"; failure e] \/
      exists text,
        read_node README (fs_at_open w README) = Ok text /\
        snd (do_GET self w)
        = [Path_exists README; Import "markdown"; Open_read README "r" "utf-8";
           Markdown text EXTENSIONS; failure e]))
  \/
  (exists text fragment,
     rendered w text fragment /\
     snd (do_GET self w)
     = [Path_exists README; Import "markdown"; Open_read README "r" "utf-8";
        Markdown text EXTENSIONS;
        Send_response 200; Send_header "Content-type" "text/html; charset=utf-8";
        End_headers; Wfile_write (encode_utf8 (Page.page fragment))]).
Proof.
  destruct (do_GET_outcome self w)
    as [[Hx R] | [[e [before [Hr [R _]]]] | [text [fragment [Hr R]]]]].
  - left. split; [exact Hx | now rewrite R].
  - right; left. exists e. split; [exact Hr | ].
    destruct Hr as [Hx | Hx Hm | md Hx Hm Hr | md text Hx Hm Hr Hc].
    + left. now rewrite (run_check_raises self w e Hx).
    + right; left. now rewrite (run_import_raises self w e Hx Hm).
    + right; right; left. now rewrite (run_read_raises self w md e Hx Hm Hr).
    + right; right; right. exists text. split; [exact Hr | ].
      now rewrite (run_convert_raises self w md text e Hx Hm Hr Hc).
  - right; right. exists text, fragment. split; [exact Hr | now rewrite R].
Qed.

Lemma page_is_not_empty (fragment : string) : encode_utf8 (Page.page fragment) <> [].
Proof.
  intros E. apply (f_equal decode_utf8) in E. rewrite decode_encode in E.
  apply (f_equal String.length) in E. unfold Page.page in E.
  rewrite length_append in E.
  replace (String.length Page.head) with 2860 in E by (vm_compute; reflexivity).
  cbn in E. discriminate E.
Qed.

(** X5. The status tells the outcome, and there are three: 200 exactly when
    the file is found, read and converted; 404 exactly when the existence
    check answers no; 500 exactly when something raised.  The handler writes
    a body of its own only with the 200. *)
Theorem status_tells_the_outcome (self : Request) (w : World) :
  (Response.status (snd (do_GET self w)) = Some 200%Z <->
   exists text fragment, rendered w text fragment) /\
  (Response.status (snd (do_GET self w)) = Some 404%Z <->
   exists_at_check w README = Ok false) /\
  (Response.status (snd (do_GET self w)) = Some 500%Z <->
   exists e, raised_in w e) /\
  (Response.status (snd (do_GET self w)) = Some 200%Z \/
   Response.status (snd (do_GET self w)) = Some 404%Z \/
   Response.status (snd (do_GET self w)) = Some 500%Z) /\
  (Response.body (snd (do_GET self w)) <> [] <->
   Response.status (snd (do_GET self w)) = Some 200%Z).
Proof.
  destruct (do_GET_outcome self w)
    as [[Hx R] | [[e [before [Hr [R [Hs [_ [Hb _]]]]]]] | [text [fragment [Hr R]]]]];
    rewrite R; cbn [snd].
  - cbn [Response.status Response.body].
    split; [ | split; [ | split; [ | split]]].
    + split; [discriminate | intros [text [fragment [Hx' _]]]; congruence].
    + split; [intros _; exact Hx | reflexivity].
    + split; [discriminate | ].
      intros [e Hr]. exfalso. eapply raised_not_absent; eassumption.
    + right; left. reflexivity.
    + split; [intros H; now contradiction H | discriminate].
  - rewrite (status_failure before e Hs), body_failure, Hb.
    split; [ | split; [ | split; [ | split]]].
    + split; [discriminate | ].
      intros [text [fragment Hr']]. exfalso. eapply raised_not_rendered; eassumption.
    + split; [discriminate | ].
      intros Hx. exfalso. eapply raised_not_absent; eassumption.
    + split; [intros _; now exists e | reflexivity].
    + right; right. reflexivity.
    + split; [intros H; now contradiction H | discriminate].
  - cbn [Response.status Response.body]. rewrite app_nil_r.
    split; [ | split; [ | split; [ | split]]].
    + split; [intros _; now exists text, fragment | reflexivity].
    + split; [discriminate | destruct Hr as [Hx _]; congruence].
    + split; [discriminate | ].
      intros [e He]. exfalso. eapply raised_not_rendered; eassumption.
    + left. reflexivity.
    + split; [reflexivity | intros _; apply page_is_not_empty].
Qed.

(** X6. Whatever the request, the handler looks for and opens no file but
    [README.md] (read mode, UTF-8), imports [markdown] alone, hands the
    converter nothing but the text read from that file, with the three
    extensions, and sends no header but the content type; it opens the file
    and calls the converter at most once. *)
Theorem handler_touches_only_README (self : Request) (w : World) :
  Forall (fun c =>
            match c with
            | Path_exists p => p = README
            | Import name => name = "markdown"%string
            | Open_read p mode encoding =>
                p = README /\ mode = "r"%string /\ encoding = "utf-8"%string
            | Markdown text extensions =>
                extensions = EXTENSIONS /\
                read_node README (fs_at_open w README) = Ok text
            | Send_header keyword value =>
                keyword = "Content-type"%string /\
                value = "text/html; charset=utf-8"%string
            | _ => True
            end)
         (snd (do_GET self w)) /\
  opens (snd (do_GET self w)) <= 1 /\
  length (Response.conversions (snd (do_GET self w))) <= 1.
Proof.
  destruct (do_GET_calls self w)
    as [[_ R] | [[e [_ [R | [R | [R | [text [Hr R]]]]]]] | [text [fragment [Hr R]]]]];
    rewrite R; unfold failure; cbn [opens Response.conversions length].
  all: split; [ | split; lia].
  6: destruct Hr as [_ [md [_ [Hr _]]]].
  all: repeat (apply Forall_cons; [cbn; auto | ]); apply Forall_nil.
Qed.

(** * Further properties: the page *)

(** X7. The template has three fields and takes them from the keyword
    arguments, whatever else is passed: a missing [title], [css] or
    [content] raises the [KeyError] of the first one missing, and otherwise
    the page is the template's four texts with the three values between
    them, each as it is (braces in a value are not read again).  The page
    the handler sends has the fixed title and the stylesheet in these
    places. *)
Theorem template_takes_three_fields (kw : Format.kwargs) :
  Format.format HTML_TEMPLATE kw =
  match Format.lookup kw "title" with
  | None => Raise (KeyError "title")
  | Some title =>
      match Format.lookup kw "css" with
      | None => Raise (KeyError "css")
      | Some css =>
          match Format.lookup kw "content" with
          | None => Raise (KeyError "content")
          | Some content =>
              Ok (Template.to_title ++ title ++ Template.to_css ++ css ++
                  Template.to_content ++ content ++ Template.to_end)%string
          end
      end
  end /\
  Page.head = (Template.to_title ++ "Blueprint App - README" ++ Template.to_css ++
               GITHUB_DARK_CSS ++ Template.to_content)%string /\
  Page.tail = Template.to_end.
Proof.
  split; [ | split; vm_compute; reflexivity].
  unfold Format.format.
  cbv -[Format.lookup].
  destruct (Format.lookup kw "title") as [title | ]; [ | reflexivity].
  cbv -[Format.lookup].
  destruct (Format.lookup kw "css") as [css | ]; [ | reflexivity].
  cbv -[Format.lookup].
  destruct (Format.lookup kw "content") as [content | ]; [ | reflexivity].
  vm_compute. reflexivity.
Qed.

(** ** Nesting *)

Lemma scan_raw_without_lt (name : string) :
  forall s st, mem Html.lt s = false -> Html.scan (Html.Raw name) st s = None.
Proof.
  induction s as [|c s IH]; intros st H; [reflexivity | ].
  simpl in H. apply orb_false_elim in H as [Hc Hs].
  cbn [Html.scan]. rewrite Hc. cbn [andb]. now apply IH.
Qed.

Lemma starts_with_late (n : string) :
  forall s rest, starts_with n s = false -> starts_with n (s ++ rest) = true ->
                 exists n2, n = (s ++ n2)%string.
Proof.
  induction n as [|a n IH]; intros [|x s] rest H1 H2; simpl in *; try discriminate.
  - now exists (String a n).
  - apply andb_prop in H2 as [Hax H2]. rewrite Hax in H1. simpl in H1.
    destruct (IH s rest H1 H2) as [n2 E]. exists n2.
    apply Ascii.eqb_eq in Hax. now subst.
Qed.

Lemma mem_prefix (c : ascii) (s n2 : string) :
  mem c (s ++ n2) = false -> mem c s = false.
Proof.
  induction s as [|x s IH]; simpl; [reflexivity | ].
  intros H. apply orb_false_elim in H as [H1 H2]. rewrite H1. now apply IH.
Qed.

Lemma raw_end_tag_has_no_lt (name : string) :
  Html.among name Html.raw_text_elements = true ->
  mem Html.lt (String Html.slash name ++ String Html.gt EmptyString) = false.
Proof.
  unfold Html.among, Html.raw_text_elements. cbn [existsb].
  intros H. apply orb_prop in H as [H | H].
  - apply String.eqb_eq in H. subst. reflexivity.
  - apply orb_prop in H as [H | H]; [ | discriminate].
    apply String.eqb_eq in H. subst. reflexivity.
Qed.

Lemma option_map_cons_app (x : string) (l : list string) (o : option (list string)) :
  option_map (cons x) (option_map (app l) o) = option_map (app (x :: l)) o.
Proof. destruct o; reflexivity. Qed.


Ltac split_cases :=
  repeat (
    cbn [app option_map] in *;
    match goal with
    | H : None = Some _ |- _ => discriminate H
    | H : (if ?b then _ else _) = Some _ |- _ => destruct b eqn:?
    | H : match ?st with [] => _ | _ :: _ => _ end = Some _ |- _ => destruct st
    | H : match ?n with EmptyString => _ | String _ _ => _ end = Some _ |- _ => destruct n
    | H : option_map _ ?o = Some _ |- _ =>
        destruct o eqn:?; [cbn [option_map] in H; injection H as H; subst | discriminate H]
    end).

Ltac by_IH IH S rest :=
  match goal with
  | H : Html.scan ?m ?st ?f = Some ?els |- _ =>
      let E := fresh "E" in
      assert (mode_ok m) as E by (first [exact I | assumption]);
      pose proof (IH m st els E H S rest) as E'; clear E;
      cbn [app] in E'; rewrite E'; rewrite ?option_map_cons_app; reflexivity
  end.

Lemma scan_frame :
  forall f m st els,
    mode_ok m ->
    Html.scan m st f = Some els ->
    forall S rest,
      Html.scan m (st ++ S) (f ++ rest)%string
      = option_map (app els) (Html.scan Html.Text S rest).
Proof.
  induction f as [|c f IH]; intros m st els Hm H S rest.
  - destruct m, st; try discriminate H. injection H as H. subst els.
    cbn [append app]. destruct (Html.scan Html.Text S rest); reflexivity.
  - change (String c f ++ rest)%string with (String c (f ++ rest)%string).
    destruct m as [ | | closing name | closing name [q | ] | | name];
      cbn [Html.scan] in H |- *.
    7: {
      destruct (Ascii.eqb c Html.lt) eqn:Hc; cbn [andb] in H |- *.
      2: { by_IH IH S rest. }
      destruct (starts_with (String Html.slash name ++ String Html.gt EmptyString) f) eqn:Hs.
      - rewrite (starts_with_append _ _ rest Hs). by_IH IH S rest.
      - destruct (starts_with (String Html.slash name ++ String Html.gt EmptyString)
                    (f ++ rest)) eqn:Hs'; [ | by_IH IH S rest].
        exfalso. destruct (starts_with_late _ _ _ Hs Hs') as [n2 En].
        pose proof (raw_end_tag_has_no_lt name Hm) as Hlt. rewrite En in Hlt.
        apply mem_prefix in Hlt.
        rewrite (scan_raw_without_lt name f st Hlt) in H. discriminate H. }
    all: split_cases; by_IH IH S rest.
Qed.

Lemma head_opens_the_article (rest : string) :
  Html.scan Html.Text [] (Page.head ++ rest)%string
  = option_map (cons "html"%string) (option_map (cons "head"%string)
      (option_map (cons "meta"%string) (option_map (cons "meta"%string)
        (option_map (cons "title"%string) (option_map (cons "style"%string)
          (option_map (cons "body"%string) (option_map (cons "article"%string)
            (Html.scan Html.Text ["article"; "body"; "html"]%string rest)))))))).
Proof. vm_compute. reflexivity. Qed.

Lemma page_elements (fragment : string) (els : list string) :
  Html.elements fragment = Some els ->
  Html.elements (Page.page fragment)
  = Some (["html"; "head"; "meta"; "meta"; "title"; "style"; "body"; "article"]%string
          ++ els ++ ["script"%string]).
Proof.
  intros H. unfold Html.elements, Page.page in *.
  rewrite head_opens_the_article.
  pose proof (scan_frame fragment Html.Text [] els I H
                ["article"; "body"; "html"]%string Page.tail) as E.
  cbn [app] in E. rewrite E.
  replace (Html.scan Html.Text ["article"; "body"; "html"]%string Page.tail)
    with (Some ["script"%string]) by (vm_compute; reflexivity).
  reflexivity.
Qed.

(** Up to the first occurrence of the needle, a text is carried along. *)
Lemma split_on_later (n : string) :
  forall a s, occurrences n (a ++ s) = occurrences n s ->
    split_on n (a ++ s)
    = match split_on n s with
      | Some (x, y) => Some (a ++ x, y)%string
      | None => None
      end.
Proof.
  induction a as [|c a IH]; intros s H.
  - cbn [append]. destruct (split_on n s) as [[x y] | ]; reflexivity.
  - change (String c a ++ s)%string with (String c (a ++ s)%string) in H |- *.
    rewrite occurrences_cons in H.
    pose proof (occurrences_append_l n a s) as Hle.
    destruct (starts_with n (String c (a ++ s))) eqn:Hs; [lia | ].
    cbn [split_on]. rewrite Hs. rewrite (IH s) by lia.
    destruct (split_on n s) as [[x y] | ]; reflexivity.
Qed.

(** X8. The page nests the fragment.  When the converted fragment is itself
    properly nested, the body of the 200 answer starts with the doctype and
    is properly nested, the fragment's elements lying inside the article,
    after the template's head and before its script; when, besides, the
    fragment holds no [</html>], the body is a well-formed document. *)
Theorem page_nests_the_fragment
    (self : Request) (w : World) (text fragment : string) (els : list string) :
  rendered w text fragment ->
  Html.elements fragment = Some els ->
  Response.status (snd (do_GET self w)) = Some 200%Z /\
  starts_with "<!DOCTYPE html>"
    (decode_utf8 (Response.body (snd (do_GET self w)))) = true /\
  Html.elements (decode_utf8 (Response.body (snd (do_GET self w))))
  = Some (["html"; "head"; "meta"; "meta"; "title"; "style"; "body"; "article"]%string
          ++ els ++ ["script"%string]) /\
  (occurrences "</html>" fragment = 0 ->
   Html.well_formed (decode_utf8 (Response.body (snd (do_GET self w)))) = true).
Proof.
  intros [Hx [md [Hm [Hr Hc]]]] He.
  rewrite (run_renders self w md text fragment Hx Hm Hr Hc).
  cbn [snd Response.status Response.body]. rewrite app_nil_r, decode_encode.
  assert (starts_with "<!DOCTYPE html>" (Page.page fragment) = true) as Hd
    by (vm_compute; reflexivity).
  pose proof (page_elements fragment els He) as Hp.
  split; [reflexivity | ]. split; [exact Hd | ]. split; [exact Hp | ].
  intros Hn. unfold Html.well_formed. rewrite Hd, Hp. cbn [app andb String.eqb].
  replace (String.eqb "html" "html") with true by reflexivity. cbn [andb].
  assert (occurrences "</html>" (Page.page fragment) = occurrences "</html>" Page.tail) as Ho.
  { rewrite (occurrences_page "</html>" fragment);
      [ | discriminate | reflexivity | reflexivity].
    rewrite Hn.
    replace (occurrences "</html>" Page.head) with 0 by (vm_compute; reflexivity).
    reflexivity. }
  unfold Page.page in Ho |- *. rewrite <- append_assoc in Ho |- *.
  rewrite (split_on_later "</html>" _ _ Ho).
  vm_compute. reflexivity.
Qed.

Lemma page_nests_the_fragment_witness :
  Html.elements (decode_utf8 (Response.body (snd (do_GET (Sample.get "/")
    (Sample.steady "hello" Sample.markdown)))))
  = Some ["html"; "head"; "meta"; "meta"; "title"; "style"; "body"; "article";
          "p"; "script"]%string.
Proof.
  apply (page_nests_the_fragment (Sample.get "/") (Sample.steady "hello" Sample.markdown)
           "hello" "<p>hello</p>" ["p"%string]).
  - split; [reflexivity | ]. exists Sample.markdown. repeat split.
  - reflexivity.
Defined.
